(** * django_elasticsearch_dsl.signals: signal processors

    A shallow embedding of [src/django_elasticsearch_dsl/signals.py] and the
    properties of its handlers.

    - [Py]          Python's [in] on strings and on tuples of strings.
    - [registries]  the interface of the [registry] object the handlers call
                    (the object itself lives in [.registries] and is taken as
                    a parameter), with one concrete registry to run things on.
    - [dispatch]    the part of [django.dispatch.Signal] the module uses:
                    [connect] and [disconnect] of bound methods.
    - [signals]     the three classes of the file. *)

From stdpp Require Import strings list.

Open Scope string_scope.
Open Scope list_scope.

(** ** Python's membership tests *)

Module Py.

(** [needle in hay] for two [str]: [needle] occurs in [hay] as a contiguous
    run of characters, which is tried at every position of [hay]. *)
Fixpoint str_in (needle hay : string) : bool :=
  String.prefix needle hay ||
  match hay with
  | EmptyString => false
  | String _ rest => str_in needle rest
  end.

(** [x in (a, b, ...)] for a tuple of [str]: equality with some element. *)
Definition tuple_in (x : string) (items : list string) : bool :=
  existsb (String.eqb x) items.

(** [needle] is a contiguous substring of [hay]. *)
Definition substring_of (needle hay : string) : Prop :=
  exists before after, hay = before +:+ needle +:+ after.

End Py.

(** ** The registry the handlers talk to *)

Module registries.

Definition Error := string.

(** A model instance, as far as the handlers are concerned: they pass it on
    untouched. *)
Record Instance := { model : string; pk : Z }.

#[global] Instance Instance_eq_dec : EqDecision Instance.
Proof. solve_decision. Defined.

(** The four calls [signals.py] makes on [registry]. [registry.delete] is the
    only one that gets a keyword argument. *)
Inductive RegistryCall :=
| update_call (instance : Instance)
| update_related_call (instance : Instance)
| delete_related_call (instance : Instance)
| delete_call (instance : Instance) (raise_on_error : bool).

#[global] Instance RegistryCall_eq_dec : EqDecision RegistryCall.
Proof. solve_decision. Defined.

(** How a call on the registry can end: it returns and the operation went
    through, it returns although the operation failed (the failure is at
    most in the returned value), or it raises. *)
Inductive Outcome :=
| Succeeded
| Reported (e : Error)
| Raised (e : Error).

Definition failed (o : Outcome) : bool :=
  match o with Succeeded => false | _ => true end.

Definition raised (o : Outcome) : bool :=
  match o with Raised _ => true | _ => false end.

(** The registry over some index state. *)
Record Registry (Index : Type) := {
  update : Instance -> Index -> Index * Outcome;
  update_related : Instance -> Index -> Index * Outcome;
  delete_related : Instance -> Index -> Index * Outcome;
  delete : Instance -> bool -> Index -> Index * Outcome
}.
Arguments update {Index}.
Arguments update_related {Index}.
Arguments delete_related {Index}.
Arguments delete {Index}.

(** A small registry to evaluate the handlers on: the index is the list of
    the instances that have a document, nothing is related to anything, and
    deleting a document that is not there is an error, raised or not as
    [raise_on_error] asks. *)
Definition list_update (i : Instance) (idx : list Instance) : list Instance * Outcome :=
  (if bool_decide (i ∈ idx) then idx else i :: idx, Succeeded).

Definition list_related (i : Instance) (idx : list Instance) : list Instance * Outcome :=
  (idx, Succeeded).

Definition list_delete (i : Instance) (raise_on_error : bool) (idx : list Instance)
  : list Instance * Outcome :=
  if bool_decide (i ∈ idx) then (filter (fun j => j <> i) idx, Succeeded)
  else (idx, if raise_on_error then Raised "not_found" else Reported "not_found").

Definition list_registry : Registry (list Instance) :=
  {| update := list_update;
     update_related := list_related;
     delete_related := list_related;
     delete := list_delete |}.

End registries.

(** ** Django's signals, as far as the module uses them *)

Module dispatch.

(** The classes of [signals.py] and the methods they define. *)
Inductive Class :=
| BaseSignalProcessor
| DjangoSignalsMixin
| RealTimeSignalProcessor.

Inductive MethodName :=
| m_init
| m_setup
| m_teardown
| m_handle_m2m_changed
| m_handle_save
| m_handle_delete.

#[global] Instance Class_eq_dec : EqDecision Class.
Proof. solve_decision. Defined.

#[global] Instance MethodName_eq_dec : EqDecision MethodName.
Proof. solve_decision. Defined.

(** A bound method [obj.name]: the object it is bound to and the function,
    which is the definition of [name] in some class. Django identifies a
    receiver that is a bound method by exactly this pair (the [id] of
    [__self__] and of [__func__]), so two lookups of [self.handle_save] on
    one object are one receiver. *)
Record BoundMethod := {
  self_id : nat;
  func_class : Class;
  func_name : MethodName
}.

#[global] Instance BoundMethod_eq_dec : EqDecision BoundMethod.
Proof. solve_decision. Defined.

(** A signal holds its receivers in the order they were connected. *)
Definition Signal := list BoundMethod.

(** [Signal.connect(receiver)]: a receiver that is already connected is not
    connected twice. *)
Definition connect (receiver : BoundMethod) (s : Signal) : Signal :=
  if bool_decide (receiver ∈ s) then s else s ++ [receiver].

(** [Signal.disconnect(receiver)]: the entry of the receiver is removed, and
    nothing happens when there is none. *)
Fixpoint disconnect (receiver : BoundMethod) (s : Signal) : Signal :=
  match s with
  | [] => []
  | r :: rest => if bool_decide (r = receiver) then rest else r :: disconnect receiver rest
  end.

(** The three signals of [django.db.models.signals] the module subscribes to. *)
Record ModelSignals := {
  post_save : Signal;
  post_delete : Signal;
  m2m_changed : Signal
}.

Definition no_receivers : ModelSignals :=
  {| post_save := []; post_delete := []; m2m_changed := [] |}.

End dispatch.

(** ** The handlers *)

Module signals.
Import registries.

(** How a Python call completes. *)
Inductive Completion (A : Type) :=
| Normal (a : A)
| Exception (e : Error).
Arguments Normal {A}.
Arguments Exception {A}.

(** What running a piece of handler code leaves behind: the index, the calls
    made on the registry with their outcomes, oldest first, and how the code
    completed. *)
Record Run (Index A : Type) := {
  final : Index;
  trace : list (RegistryCall * Outcome);
  completion : Completion A
}.
Arguments final {Index A}.
Arguments trace {Index A}.
Arguments completion {Index A}.

Definition calls {Index A} (r : Run Index A) : list RegistryCall := map fst (trace r).

Definition PyM (Index A : Type) := Index -> Run Index A.

(** Returning a value and sequencing; an exception skips everything after
    it. *)
#[global] Instance PyM_ret {Index} : MRet (PyM Index) :=
  fun A a idx => {| final := idx; trace := []; completion := Normal a |}.

#[global] Instance PyM_bind {Index} : MBind (PyM Index) :=
  fun A B k m idx =>
    let r := m idx in
    match completion r with
    | Normal a =>
        let r' := k a (final r) in
        {| final := final r'; trace := trace r ++ trace r'; completion := completion r' |}
    | Exception e =>
        {| final := final r; trace := trace r; completion := Exception e |}
    end.

(** One call on the registry; it evaluates to what the call returned. *)
Definition invoke {Index} (c : RegistryCall) (op : Index -> Index * Outcome)
  : PyM Index (option Error) :=
  fun idx =>
    let (idx', o) := op idx in
    {| final := idx';
       trace := [(c, o)];
       completion := match o with
                     | Succeeded => Normal None
                     | Reported e => Normal (Some e)
                     | Raised e => Exception e
                     end |}.

(** The [sender] of a signal is the model class; the handlers ignore it, as
    they do the further keyword arguments Django passes ([**kwargs]). *)
Definition Sender := string.

Section Handlers.
Context {Index : Type} (registry : Registry Index).

Definition registry_update (instance : Instance) : PyM Index (option Error) :=
  invoke (update_call instance) (update registry instance).

Definition registry_update_related (instance : Instance) : PyM Index (option Error) :=
  invoke (update_related_call instance) (update_related registry instance).

Definition registry_delete_related (instance : Instance) : PyM Index (option Error) :=
  invoke (delete_related_call instance) (delete_related registry instance).

Definition registry_delete (instance : Instance) (raise_on_error : bool)
  : PyM Index (option Error) :=
  invoke (delete_call instance raise_on_error) (delete registry instance raise_on_error).

Definition handle_save (sender : Sender) (instance : Instance) : PyM Index unit :=
  registry_update instance ;;
  registry_update_related instance ;;
  mret tt.

Definition handle_delete (sender : Sender) (instance : Instance) : PyM Index unit :=
  registry_delete_related instance ;;
  registry_delete instance false ;;
  mret tt.

Definition handle_m2m_changed (sender : Sender) (instance : Instance) (action : string)
  : PyM Index unit :=
  if Py.str_in action "post_add" then handle_save sender instance
  else if Py.tuple_in action ["post_remove"; "post_clear"] then handle_delete sender instance
  else mret tt.

End Handlers.

(** *** Classes, method resolution and the subscription hooks *)

Import dispatch.

(** Which class body has a [def] of which method. [RealTimeSignalProcessor]
    is only [pass]. *)
Definition defines (c : Class) (m : MethodName) : bool :=
  match c, m with
  | BaseSignalProcessor, _ => true
  | DjangoSignalsMixin, (m_setup | m_teardown) => true
  | DjangoSignalsMixin, _ => false
  | RealTimeSignalProcessor, _ => false
  end.

(** The method resolution order, [object] left out. *)
Definition mro (c : Class) : list Class :=
  match c with
  | BaseSignalProcessor => [BaseSignalProcessor]
  | DjangoSignalsMixin => [DjangoSignalsMixin]
  | RealTimeSignalProcessor =>
      [RealTimeSignalProcessor; DjangoSignalsMixin; BaseSignalProcessor]
  end.

(** The class whose definition of [m] an instance of [c] gets; [None] is an
    [AttributeError] (for [m_init]: [object.__init__], which takes no
    [connections]). *)
Definition resolve (c : Class) (m : MethodName) : option Class :=
  List.find (fun k => defines k m) (mro c).

Definition Connections := list string.

(** A processor object: its class, its identity and the attribute
    [connections], unset until [__init__] has run. *)
Record Processor := {
  cls : Class;
  obj_id : nat;
  connections : option Connections
}.

(** [self.name] for a method. *)
Definition getattr (self : Processor) (name : MethodName) : option BoundMethod :=
  c ← resolve (cls self) name;
  Some {| self_id := obj_id self; func_class := c; func_name := name |}.

Definition BaseSignalProcessor_setup (self : Processor) (bus : ModelSignals)
  : option ModelSignals :=
  Some bus.

Definition BaseSignalProcessor_teardown (self : Processor) (bus : ModelSignals)
  : option ModelSignals :=
  Some bus.

(** The mixin's hooks. [None] is the [AttributeError] of a handler lookup;
    the three handlers are defined together in [BaseSignalProcessor], so the
    lookups fail on the first statement or not at all, and no half-done
    subscription is lost by returning no state. *)
Definition DjangoSignalsMixin_setup (self : Processor) (bus : ModelSignals)
  : option ModelSignals :=
  h ← getattr self m_handle_save;
  let bus := {| post_save := connect h (post_save bus);
                post_delete := post_delete bus;
                m2m_changed := m2m_changed bus |} in
  h ← getattr self m_handle_delete;
  let bus := {| post_save := post_save bus;
                post_delete := connect h (post_delete bus);
                m2m_changed := m2m_changed bus |} in
  h ← getattr self m_handle_m2m_changed;
  Some {| post_save := post_save bus;
          post_delete := post_delete bus;
          m2m_changed := connect h (m2m_changed bus) |}.

Definition DjangoSignalsMixin_teardown (self : Processor) (bus : ModelSignals)
  : option ModelSignals :=
  h ← getattr self m_handle_save;
  let bus := {| post_save := disconnect h (post_save bus);
                post_delete := post_delete bus;
                m2m_changed := m2m_changed bus |} in
  h ← getattr self m_handle_delete;
  let bus := {| post_save := post_save bus;
                post_delete := disconnect h (post_delete bus);
                m2m_changed := m2m_changed bus |} in
  h ← getattr self m_handle_m2m_changed;
  Some {| post_save := post_save bus;
          post_delete := post_delete bus;
          m2m_changed := disconnect h (m2m_changed bus) |}.

(** [self.setup()] and [self.teardown()], through the resolution order. *)
Definition setup (self : Processor) (bus : ModelSignals) : option ModelSignals :=
  c ← resolve (cls self) m_setup;
  match c with
  | DjangoSignalsMixin => DjangoSignalsMixin_setup self bus
  | _ => BaseSignalProcessor_setup self bus
  end.

Definition teardown (self : Processor) (bus : ModelSignals) : option ModelSignals :=
  c ← resolve (cls self) m_teardown;
  match c with
  | DjangoSignalsMixin => DjangoSignalsMixin_teardown self bus
  | _ => BaseSignalProcessor_teardown self bus
  end.

(** [BaseSignalProcessor.__init__]. *)
Definition BaseSignalProcessor_init (self : Processor) (conns : Connections)
    (bus : ModelSignals) : option (Processor * ModelSignals) :=
  let self := {| cls := cls self; obj_id := obj_id self; connections := Some conns |} in
  bus ← setup self bus;
  Some (self, bus).

(** [c(connections)]: a new object of class [c], with identity [new_id], on
    which [__init__] is run. *)
Definition construct (c : Class) (new_id : nat) (conns : Connections)
    (bus : ModelSignals) : option (Processor * ModelSignals) :=
  k ← resolve c m_init;
  match k with
  | BaseSignalProcessor =>
      BaseSignalProcessor_init {| cls := c; obj_id := new_id; connections := None |} conns bus
  | _ => None
  end.

(** Whether the handler [self.name] is among the receivers of a signal. *)
Definition receives (self : Processor) (name : MethodName) (s : Signal) : bool :=
  match getattr self name with
  | Some h => bool_decide (h ∈ s)
  | None => false
  end.

(** All three handlers of [self] are connected, each to its signal. *)
Definition all_subscribed (self : Processor) (bus : ModelSignals) : bool :=
  receives self m_handle_save (post_save bus) &&
  receives self m_handle_delete (post_delete bus) &&
  receives self m_handle_m2m_changed (m2m_changed bus).

(** At least one of them is. *)
Definition any_subscribed (self : Processor) (bus : ModelSignals) : bool :=
  receives self m_handle_save (post_save bus) ||
  receives self m_handle_delete (post_delete bus) ||
  receives self m_handle_m2m_changed (m2m_changed bus).

End signals.

Import Py registries dispatch signals.

(** ** Vocabulary of the properties *)

(** An instance to evaluate things on. *)
Definition doc1 : Instance := {| model := "Car"; pk := 1 |}.

Definition is_update_call (c : RegistryCall) : bool :=
  match c with
  | update_call _ | update_related_call _ => true
  | _ => false
  end.

(** The first exception among the outcomes of a trace. *)
Definition first_raised (t : list (RegistryCall * Outcome)) : option Error :=
  match List.find (fun co => raised (snd co)) t with
  | Some (_, Raised e) => Some e
  | _ => None
  end.

(** What falls out of a handler to its caller, given the trace it left. *)
Definition propagated (t : list (RegistryCall * Outcome)) : Completion unit :=
  match first_raised t with
  | Some e => Exception e
  | None => Normal tt
  end.

(** The order C4 asks for: the delete of the instance itself is the first
    call of [handle_delete]. *)
Definition delete_comes_first {Index} (registry : Registry Index)
    (sender : Sender) (instance : Instance) (idx : Index) : Prop :=
  exists rest,
    calls (handle_delete registry sender instance idx) =
    delete_call instance false :: rest.

(** What C6 asks of a run of a handler. The module has no sink of its own:
    all a handler lets anyone outside know is how it completes, so a failed
    registry operation is surfaced when the handler ends in an exception. *)
Definition failures_surfaced {Index A} (r : Run Index A) : Prop :=
  forall c o, (c, o) ∈ trace r -> failed o = true ->
              exists e, completion r = Exception e.

Definition asks_not_to_raise (c : RegistryCall) : bool :=
  match c with
  | delete_call _ raise_on_error => negb raise_on_error
  | _ => true
  end.

(** What C7 asks: [setup] followed by [teardown] gives back the
    subscriptions there were before [setup]. *)
Definition roundtrip (self : Processor) (bus : ModelSignals) : Prop :=
  exists bus', setup self bus = Some bus' /\ teardown self bus' = Some bus.

Definition unbuilt (c : Class) (i : nat) : Processor :=
  {| cls := c; obj_id := i; connections := None |}.

(** The receiver [self.name] of a processor whose handlers are the ones of
    [BaseSignalProcessor]. *)
Definition handler (self : Processor) (name : MethodName) : BoundMethod :=
  {| self_id := obj_id self; func_class := BaseSignalProcessor; func_name := name |}.

(** No receiver is connected twice to one signal, which is how Django keeps
    the receivers of a signal. *)
Definition distinct_receivers (bus : ModelSignals) : bool :=
  bool_decide (NoDup (post_save bus)) &&
  bool_decide (NoDup (post_delete bus)) &&
  bool_decide (NoDup (m2m_changed bus)).

(** The signals with the handlers of the live [RealTimeSignalProcessor]
    objects [ids] connected, in that order. *)
Definition subscribed_bus (ids : list nat) : ModelSignals :=
  {| post_save := map (fun i => handler (unbuilt RealTimeSignalProcessor i) m_handle_save) ids;
     post_delete := map (fun i => handler (unbuilt RealTimeSignalProcessor i) m_handle_delete) ids;
     m2m_changed :=
       map (fun i => handler (unbuilt RealTimeSignalProcessor i) m_handle_m2m_changed) ids |}.

(** The instance a registry call is about. *)
Definition call_instance (c : RegistryCall) : Instance :=
  match c with
  | update_call i | update_related_call i | delete_related_call i | delete_call i _ => i
  end.

(** A registry call on the given instance. *)
Definition is_about (instance : Instance) (c : RegistryCall) : bool :=
  bool_decide (call_instance c = instance).

(** In a trace, a call that raised is the last one. *)
Fixpoint stops_at_raise (t : list (RegistryCall * Outcome)) : bool :=
  match t with
  | [] => true
  | (_, o) :: rest =>
      if raised o then match rest with [] => true | _ => false end
      else stops_at_raise rest
  end.

(** The prefixes and the contiguous substrings of a string, the empty string
    among them. *)
Fixpoint prefixes (s : string) : list string :=
  EmptyString ::
  match s with
  | EmptyString => []
  | String c rest => map (String c) (prefixes rest)
  end.

Fixpoint substrings (s : string) : list string :=
  prefixes s ++
  match s with
  | EmptyString => []
  | String _ rest => substrings rest
  end.

(** The thirty-six strings that occur in ['post_add']. *)
Definition save_actions : list string :=
  [EmptyString; "p"; "o"; "s"; "t"; "_"; "a"; "d";
   "po"; "os"; "st"; "t_"; "_a"; "ad"; "dd";
   "pos"; "ost"; "st_"; "t_a"; "_ad"; "add";
   "post"; "ost_"; "st_a"; "t_ad"; "_add";
   "post_"; "ost_a"; "st_ad"; "t_add";
   "post_a"; "ost_ad"; "st_add";
   "post_ad"; "ost_add";
   "post_add"].

(** What two registry calls in a row leave behind, written out: the second
    call runs on the index the first one left, and is not made when the
    first one raised; what the calls return goes nowhere. *)
Definition two_calls {Index} (c1 : RegistryCall) (op1 : Index -> Index * Outcome)
    (c2 : RegistryCall) (op2 : Index -> Index * Outcome) (idx : Index)
  : Run Index unit :=
  let (idx1, o1) := op1 idx in
  match o1 with
  | Raised e => {| final := idx1; trace := [(c1, o1)]; completion := Exception e |}
  | _ =>
      let (idx2, o2) := op2 idx1 in
      {| final := idx2;
         trace := [(c1, o1); (c2, o2)];
         completion := match o2 with
                       | Raised e => Exception e
                       | _ => Normal tt
                       end |}
  end.

(** [registry.update(instance)], then [registry.update_related(instance)]. *)
Definition update_then_update_related {Index} (registry : Registry Index)
    (instance : Instance) : Index -> Run Index unit :=
  two_calls (update_call instance) (update registry instance)
            (update_related_call instance) (update_related registry instance).

(** [registry.delete_related(instance)], then
    [registry.delete(instance, raise_on_error=False)]. *)
Definition delete_related_then_delete {Index} (registry : Registry Index)
    (instance : Instance) : Index -> Run Index unit :=
  two_calls (delete_related_call instance) (delete_related registry instance)
            (delete_call instance false) (delete registry instance false).


(** A registry that does the same to the index but keeps its failures to
    itself unless it raises them: every reported failure reads as success. *)
Definition hush (o : Outcome) : Outcome :=
  match o with
  | Reported _ => Succeeded
  | _ => o
  end.

Definition hush_op {Index} (op : Index -> Index * Outcome) (idx : Index)
  : Index * Outcome :=
  let (idx', o) := op idx in (idx', hush o).

Definition hushed {Index} (registry : Registry Index) : Registry Index :=
  {| update := fun i => hush_op (update registry i);
     update_related := fun i => hush_op (update_related registry i);
     delete_related := fun i => hush_op (delete_related registry i);
     delete := fun i b => hush_op (delete registry i b) |}.

(** Two runs that an observer of the handler cannot tell apart: the same
    index left, the same calls made, the same completion. *)
Definition same_behaviour {Index} (r1 r2 : Run Index unit) : Prop :=
  final r1 = final r2 /\ calls r1 = calls r2 /\ completion r1 = completion r2.

(** The hooks statement by statement: the signals reached, and whether the
    hook ran to its end. A lookup of [self.name] that fails stops the hook
    where it is, with the signals as the statements before it left them. *)
Record HookRun := {
  reached : ModelSignals;
  finished : bool
}.

Definition hook_step (self : Processor) (name : MethodName)
    (change : BoundMethod -> ModelSignals -> ModelSignals) (r : HookRun) : HookRun :=
  if finished r then
    match getattr self name with
    | Some h => {| reached := change h (reached r); finished := true |}
    | None => {| reached := reached r; finished := false |}
    end
  else r.

Definition on_post_save (f : Signal -> Signal) (bus : ModelSignals) : ModelSignals :=
  {| post_save := f (post_save bus);
     post_delete := post_delete bus;
     m2m_changed := m2m_changed bus |}.

Definition on_post_delete (f : Signal -> Signal) (bus : ModelSignals) : ModelSignals :=
  {| post_save := post_save bus;
     post_delete := f (post_delete bus);
     m2m_changed := m2m_changed bus |}.

Definition on_m2m_changed (f : Signal -> Signal) (bus : ModelSignals) : ModelSignals :=
  {| post_save := post_save bus;
     post_delete := post_delete bus;
     m2m_changed := f (m2m_changed bus) |}.

Definition DjangoSignalsMixin_setup_run (self : Processor) (bus : ModelSignals) : HookRun :=
  hook_step self m_handle_m2m_changed (fun h => on_m2m_changed (connect h))
    (hook_step self m_handle_delete (fun h => on_post_delete (connect h))
       (hook_step self m_handle_save (fun h => on_post_save (connect h))
          {| reached := bus; finished := true |})).

Definition DjangoSignalsMixin_teardown_run (self : Processor) (bus : ModelSignals)
  : HookRun :=
  hook_step self m_handle_m2m_changed (fun h => on_m2m_changed (disconnect h))
    (hook_step self m_handle_delete (fun h => on_post_delete (disconnect h))
       (hook_step self m_handle_save (fun h => on_post_save (disconnect h))
          {| reached := bus; finished := true |})).

Definition setup_run (self : Processor) (bus : ModelSignals) : HookRun :=
  match resolve (cls self) m_setup with
  | Some DjangoSignalsMixin => DjangoSignalsMixin_setup_run self bus
  | Some _ => {| reached := bus; finished := true |}
  | None => {| reached := bus; finished := false |}
  end.

Definition teardown_run (self : Processor) (bus : ModelSignals) : HookRun :=
  match resolve (cls self) m_teardown with
  | Some DjangoSignalsMixin => DjangoSignalsMixin_teardown_run self bus
  | Some _ => {| reached := bus; finished := true |}
  | None => {| reached := bus; finished := false |}
  end.

(** What a [HookRun] is in terms of [setup] and [teardown]. *)
Definition outcome_of (r : HookRun) : option ModelSignals :=
  if finished r then Some (reached r) else None.

(** ** Properties *)

(** *** Membership tests *)

Lemma prefix_spec (a b : string) :
  String.prefix a b = true <-> exists rest, b = a +:+ rest.
Proof.
  revert b. induction a as [|c a IH]; intros [|d b]; simpl.
  - split; eauto.
  - split; eauto.
  - split; [discriminate | intros [rest H]; discriminate].
  - destruct (Ascii.ascii_dec c d) as [->|Hne].
    + rewrite IH. split; intros [rest H]; exists rest.
      * rewrite H. reflexivity.
      * injection H as H. exact H.
    + split; [discriminate | intros [rest H]; injection H as H1 H2; congruence].
Qed.

Lemma str_in_nil (needle : string) :
  str_in needle EmptyString = String.prefix needle EmptyString.
Proof. apply orb_false_r. Qed.

Lemma str_in_cons (needle : string) (c : Ascii.ascii) (hay : string) :
  str_in needle (String c hay) =
  String.prefix needle (String c hay) || str_in needle hay.
Proof. reflexivity. Qed.

Lemma str_in_spec (needle hay : string) :
  str_in needle hay = true <-> substring_of needle hay.
Proof.
  split.
  - induction hay as [|c hay IH].
    + rewrite str_in_nil. intros H.
      apply prefix_spec in H as [rest H]. exists EmptyString, rest. exact H.
    + rewrite str_in_cons. intros H. apply orb_true_iff in H as [H|H].
      * apply prefix_spec in H as [rest H]. exists EmptyString, rest. exact H.
      * destruct (IH H) as (before & after & ->).
        exists (String c before), after. reflexivity.
  - intros (before & after & ->).
    induction before as [|c before IH].
    + assert (H : String.prefix needle (needle +:+ after) = true)
        by (apply prefix_spec; eauto).
      change (EmptyString +:+ needle +:+ after) with (needle +:+ after).
      destruct (needle +:+ after).
      * rewrite str_in_nil. exact H.
      * rewrite str_in_cons, H. reflexivity.
    + change (str_in needle (String c (before +:+ needle +:+ after)) = true).
      rewrite str_in_cons, IH. apply orb_true_r.
Qed.

Lemma tuple_in_spec (x : string) (items : list string) :
  tuple_in x items = true <-> x ∈ items.
Proof.
  unfold tuple_in. rewrite existsb_exists. split.
  - intros (y & Hy & E). apply String.eqb_eq in E as ->.
    apply list_elem_of_In, Hy.
  - intros H. exists x. split; [apply list_elem_of_In, H | apply String.eqb_refl].
Qed.

(** *** The handlers, call by call *)

Ltac unfold_handlers :=
  unfold handle_save, handle_delete,
    registry_update, registry_update_related,
    registry_delete_related, registry_delete,
    invoke, mbind, PyM_bind, mret, PyM_ret, calls, propagated, first_raised.

Ltac step_call :=
  match goal with
  | |- context [update ?r ?i ?x] =>
      let o := fresh "o" in destruct (update r i x) as [? o]; destruct o; simpl
  | |- context [update_related ?r ?i ?x] =>
      let o := fresh "o" in destruct (update_related r i x) as [? o]; destruct o; simpl
  | |- context [delete_related ?r ?i ?x] =>
      let o := fresh "o" in destruct (delete_related r i x) as [? o]; destruct o; simpl
  | |- context [delete ?r ?i ?b ?x] =>
      let o := fresh "o" in destruct (delete r i b x) as [? o]; destruct o; simpl
  end.

Ltac run_handler := unfold_handlers; simpl; repeat step_call; try reflexivity.

Section HandlerFacts.
Context {Index : Type} (registry : Registry Index).
Implicit Types (sender : Sender) (instance : Instance) (idx : Index).

Lemma handle_save_calls sender instance idx :
  calls (handle_save registry sender instance idx) =
  update_call instance ::
    (if raised (snd (update registry instance idx)) then []
     else [update_related_call instance]).
Proof. run_handler. Qed.

Lemma handle_delete_calls sender instance idx :
  calls (handle_delete registry sender instance idx) =
  delete_related_call instance ::
    (if raised (snd (delete_related registry instance idx)) then []
     else [delete_call instance false]).
Proof. run_handler. Qed.

Lemma handle_save_completion sender instance idx :
  completion (handle_save registry sender instance idx) =
  propagated (trace (handle_save registry sender instance idx)).
Proof. run_handler. Qed.

Lemma handle_delete_completion sender instance idx :
  completion (handle_delete registry sender instance idx) =
  propagated (trace (handle_delete registry sender instance idx)).
Proof. run_handler. Qed.

Lemma m2m_save_branch sender instance action idx :
  str_in action "post_add" = true ->
  handle_m2m_changed registry sender instance action idx =
  handle_save registry sender instance idx.
Proof. intros H. unfold handle_m2m_changed. rewrite H. reflexivity. Qed.

Lemma m2m_delete_branch sender instance action idx :
  str_in action "post_add" = false ->
  tuple_in action ["post_remove"; "post_clear"] = true ->
  handle_m2m_changed registry sender instance action idx =
  handle_delete registry sender instance idx.
Proof. intros H1 H2. unfold handle_m2m_changed. rewrite H1, H2. reflexivity. Qed.

Lemma m2m_no_branch sender instance action idx :
  str_in action "post_add" = false ->
  tuple_in action ["post_remove"; "post_clear"] = false ->
  handle_m2m_changed registry sender instance action idx =
  {| final := idx; trace := []; completion := Normal tt |}.
Proof. intros H1 H2. unfold handle_m2m_changed. rewrite H1, H2. reflexivity. Qed.

Lemma handle_save_run sender instance idx :
  handle_save registry sender instance idx =
  update_then_update_related registry instance idx.
Proof.
  unfold update_then_update_related, two_calls. run_handler.
Qed.

Lemma handle_delete_run sender instance idx :
  handle_delete registry sender instance idx =
  delete_related_then_delete registry instance idx.
Proof.
  unfold delete_related_then_delete, two_calls. run_handler.
Qed.

Lemma handle_save_stops sender instance idx :
  stops_at_raise (trace (handle_save registry sender instance idx)) = true.
Proof. run_handler. Qed.

Lemma handle_delete_stops sender instance idx :
  stops_at_raise (trace (handle_delete registry sender instance idx)) = true.
Proof. run_handler. Qed.

End HandlerFacts.

(** *** The many-to-many dispatch *)




(** C9. The first test of [handle_m2m_changed] is a substring test: every
    action that is a contiguous substring of ['post_add'] takes the save
    path, and every action that is neither such a substring nor
    ['post_remove'] nor ['post_clear'] leaves the registry alone: no call is
    made, the index is as before and the handler returns. *)
Theorem m2m_substring_dispatch {Index} (registry : Registry Index)
    (sender : Sender) (instance : Instance) (action : string) (idx : Index) :
  (substring_of action "post_add" ->
   handle_m2m_changed registry sender instance action idx =
     handle_save registry sender instance idx) /\
  (~ substring_of action "post_add" ->
   action <> "post_remove" -> action <> "post_clear" ->
   handle_m2m_changed registry sender instance action idx =
     {| final := idx; trace := []; completion := Normal tt |}).
Proof.
  split.
  - intros H. apply m2m_save_branch, str_in_spec, H.
  - intros H Hr Hc. apply m2m_no_branch.
    + destruct (str_in action "post_add") eqn:E; [|reflexivity].
      exfalso. apply H, str_in_spec, E.
    + destruct (tuple_in action ["post_remove"; "post_clear"]) eqn:E; [|reflexivity].
      apply tuple_in_spec in E.
      rewrite !elem_of_cons in E. destruct E as [E | [E | E]]; try contradiction.
      apply elem_of_nil in E. contradiction.
Qed.

Lemma not_substring (needle hay : string) :
  str_in needle hay = false -> ~ substring_of needle hay.
Proof. intros E H. apply str_in_spec in H. congruence. Qed.

Lemma m2m_substring_dispatch_witness :
  (substring_of "add" "post_add" /\
   handle_m2m_changed list_registry "Car" doc1 "add" [] =
     handle_save list_registry "Car" doc1 []) /\
  (~ substring_of "pre_add" "post_add" /\
   "pre_add" <> "post_remove" /\ "pre_add" <> "post_clear" /\
   handle_m2m_changed list_registry "Car" doc1 "pre_add" [] =
     {| final := []; trace := []; completion := Normal tt |}).
Proof.
  assert (Hs : substring_of "add" "post_add") by (exists "post_", EmptyString; reflexivity).
  assert (Hn : ~ substring_of "pre_add" "post_add") by (apply not_substring; reflexivity).
  assert (Hr : "pre_add" <> "post_remove") by discriminate.
  assert (Hc : "pre_add" <> "post_clear") by discriminate.
  split.
  - split; [exact Hs|].
    exact (proj1 (m2m_substring_dispatch list_registry "Car" doc1 "add" []) Hs).
  - split; [exact Hn|]. split; [exact Hr|]. split; [exact Hc|].
    exact (proj2 (m2m_substring_dispatch list_registry "Car" doc1 "pre_add" []) Hn Hr Hc).
Defined.

(** The actions the substring test lets through, and the ['pre_'] actions
    Django sends before the change. *)
Example m2m_fragments_take_save_path :
  Forall (fun action =>
            calls (handle_m2m_changed list_registry "Car" doc1 action []) =
            [update_call doc1; update_related_call doc1])
         ["post_add"; "post"; "add"; "_"; EmptyString; "t_a"; "p"].
Proof. repeat constructor. Qed.

Example m2m_pre_actions_do_nothing :
  Forall (fun action =>
            handle_m2m_changed list_registry "Car" doc1 action [doc1] =
            {| final := [doc1]; trace := []; completion := Normal tt |})
         ["pre_add"; "pre_remove"; "pre_clear"; "post_added"; "POST_ADD"].
Proof. repeat constructor. Qed.

(** *** Saves and deletes *)

(** C3. Handling a delete never updates the index entry of the deleted
    instance: [handle_delete] calls [registry.delete_related] on the
    instance and, that call having returned, [registry.delete] on it; every
    call it makes is one of these two, and no [registry.update] or
    [registry.update_related] call, on this or any instance, is among them. *)
Theorem handle_delete_never_updates {Index} (registry : Registry Index)
    (sender : Sender) (instance : Instance) (idx : Index) :
  existsb is_update_call (calls (handle_delete registry sender instance idx)) = false /\
  forallb (fun c => bool_decide (c = delete_related_call instance) ||
                    bool_decide (c = delete_call instance false))
          (calls (handle_delete registry sender instance idx)) = true /\
  head (calls (handle_delete registry sender instance idx)) =
    Some (delete_related_call instance) /\
  (if raised (snd (delete_related registry instance idx)) then True
   else last (calls (handle_delete registry sender instance idx)) =
        Some (delete_call instance false)).
Proof.
  rewrite handle_delete_calls.
  destruct (raised _); simpl; rewrite ?bool_decide_eq_true_2 by reflexivity;
    rewrite ?orb_true_r; auto.
Qed.

(** C4, as stated, fails: on an index that holds the document of [doc1] the
    first call is [registry.delete_related(doc1)]. *)
Lemma delete_comes_first_fails :
  ~ delete_comes_first list_registry "Car" doc1 [doc1].
Proof. intros [rest H]. vm_compute in H. discriminate. Qed.

(** C4, amended. Handling a delete first calls
    [registry.delete_related(instance)], the operation on the related
    documents, and only then, unless that call raised,
    [registry.delete(instance, raise_on_error=False)] for the instance
    itself. *)
Theorem handle_delete_related_first {Index} (registry : Registry Index)
    (sender : Sender) (instance : Instance) (idx : Index) :
  calls (handle_delete registry sender instance idx) =
  delete_related_call instance ::
    (if raised (snd (delete_related registry instance idx)) then []
     else [delete_call instance false]).
Proof. apply handle_delete_calls. Qed.




(** *** Failures *)

(** C6, as stated, fails: deleting an instance that has no document fails in
    [list_registry], [raise_on_error=False] keeps the registry from raising,
    and [handle_delete] returns as if nothing had happened. *)
Lemma failure_not_surfaced :
  ~ failures_surfaced (handle_delete list_registry "Car" doc1 []).
Proof.
  intros H.
  destruct (H (delete_call doc1 false) (Reported "not_found")) as [e He].
  - vm_compute. apply list_elem_of_In. right. left. reflexivity.
  - reflexivity.
  - vm_compute in He. discriminate.
Qed.

(** C6, amended. A handler surfaces exactly the failures the registry raises.
    [handle_save] is [registry.update] then [registry.update_related], and
    [handle_delete] is [registry.delete_related] then [registry.delete] with
    [raise_on_error=False], each second call on the index the first one left;
    a handler ends in the first exception a call raised, that call being the
    last one it makes, and returns normally when none raised. What a call
    returns is dropped: on a registry that reports none of its failures the
    handlers leave the same index, make the same calls and complete the same
    way. *)
Theorem failures_surface_only_by_raising {Index} (registry : Registry Index)
    (sender : Sender) (instance : Instance) (action : string) (idx : Index) :
  (completion (handle_save registry sender instance idx) =
     propagated (trace (handle_save registry sender instance idx)) /\
   completion (handle_delete registry sender instance idx) =
     propagated (trace (handle_delete registry sender instance idx)) /\
   completion (handle_m2m_changed registry sender instance action idx) =
     propagated (trace (handle_m2m_changed registry sender instance action idx))) /\
  (forallb asks_not_to_raise (calls (handle_save registry sender instance idx)) = true /\
   forallb asks_not_to_raise (calls (handle_delete registry sender instance idx)) = true /\
   forallb asks_not_to_raise
     (calls (handle_m2m_changed registry sender instance action idx)) = true) /\
  (handle_save registry sender instance idx =
     update_then_update_related registry instance idx /\
   handle_delete registry sender instance idx =
     delete_related_then_delete registry instance idx) /\
  (stops_at_raise (trace (handle_save registry sender instance idx)) = true /\
   stops_at_raise (trace (handle_delete registry sender instance idx)) = true /\
   stops_at_raise
     (trace (handle_m2m_changed registry sender instance action idx)) = true) /\
  (same_behaviour (handle_save (hushed registry) sender instance idx)
                  (handle_save registry sender instance idx) /\
   same_behaviour (handle_delete (hushed registry) sender instance idx)
                  (handle_delete registry sender instance idx) /\
   same_behaviour (handle_m2m_changed (hushed registry) sender instance action idx)
                  (handle_m2m_changed registry sender instance action idx)).
Proof.
  assert (Hs := handle_save_completion registry sender instance idx).
  assert (Hd := handle_delete_completion registry sender instance idx).
  assert (Cs : forallb asks_not_to_raise
                 (calls (handle_save registry sender instance idx)) = true)
    by (rewrite handle_save_calls; destruct (raised _); reflexivity).
  assert (Cd : forallb asks_not_to_raise
                 (calls (handle_delete registry sender instance idx)) = true)
    by (rewrite handle_delete_calls; destruct (raised _); reflexivity).
  assert (Rs := handle_save_run registry sender instance idx).
  assert (Rd := handle_delete_run registry sender instance idx).
  assert (Ss := handle_save_stops registry sender instance idx).
  assert (Sd := handle_delete_stops registry sender instance idx).
  assert (Qs : same_behaviour (handle_save (hushed registry) sender instance idx)
                              (handle_save registry sender instance idx)).
  { rewrite !handle_save_run.
    unfold same_behaviour, update_then_update_related, two_calls, calls,
      hushed, hush_op. simpl.
    destruct (update registry instance idx) as [idx1 [|e|e]]; simpl; auto;
      destruct (update_related registry instance idx1) as [idx2 [|e'|e']];
      simpl; auto. }
  assert (Qd : same_behaviour (handle_delete (hushed registry) sender instance idx)
                              (handle_delete registry sender instance idx)).
  { rewrite !handle_delete_run.
    unfold same_behaviour, delete_related_then_delete, two_calls, calls,
      hushed, hush_op. simpl.
    destruct (delete_related registry instance idx) as [idx1 [|e|e]]; simpl; auto;
      destruct (delete registry instance false idx1) as [idx2 [|e'|e']];
      simpl; auto. }
  assert (M : handle_m2m_changed (hushed registry) sender instance action idx =
              (if str_in action "post_add"
               then handle_save (hushed registry) sender instance idx
               else if tuple_in action ["post_remove"; "post_clear"]
                    then handle_delete (hushed registry) sender instance idx
                    else {| final := idx; trace := []; completion := Normal tt |}) /\
              handle_m2m_changed registry sender instance action idx =
              (if str_in action "post_add"
               then handle_save registry sender instance idx
               else if tuple_in action ["post_remove"; "post_clear"]
                    then handle_delete registry sender instance idx
                    else {| final := idx; trace := []; completion := Normal tt |})).
  { unfold handle_m2m_changed.
    destruct (str_in action "post_add"); [split; reflexivity|].
    destruct (tuple_in action _); split; reflexivity. }
  destruct M as [-> ->].
  destruct (str_in action "post_add");
    [repeat split; try assumption; try apply Qs; apply Qd|].
  destruct (tuple_in action _);
    [repeat split; try assumption; try apply Qs; apply Qd|].
  repeat split; try assumption; try apply Qs; try apply Qd.
Qed.

(** *** Subscription *)

Lemma disconnect_absent (r : BoundMethod) (s : Signal) :
  r ∉ s -> disconnect r s = s.
Proof.
  induction s as [|x s IH]; simpl; intros H; [reflexivity|].
  apply not_elem_of_cons in H as [Hx Hs]. case_bool_decide; [congruence|].
  rewrite IH by exact Hs. reflexivity.
Qed.

Lemma disconnect_appended (r : BoundMethod) (s : Signal) :
  r ∉ s -> disconnect r (s ++ [r]) = s.
Proof.
  induction s as [|x s IH]; simpl; intros H.
  - rewrite bool_decide_eq_true_2 by reflexivity. reflexivity.
  - apply not_elem_of_cons in H as [Hx Hs]. case_bool_decide; [congruence|].
    rewrite IH by exact Hs. reflexivity.
Qed.

Lemma disconnect_connect (r : BoundMethod) (s : Signal) :
  disconnect r (connect r s) = disconnect r s.
Proof.
  unfold connect. case_bool_decide as H; [reflexivity|].
  rewrite disconnect_appended, disconnect_absent by exact H. reflexivity.
Qed.

Lemma elem_of_connect (r : BoundMethod) (s : Signal) : r ∈ connect r s.
Proof.
  unfold connect. case_bool_decide as H; [exact H|].
  apply elem_of_app. right. apply list_elem_of_singleton. reflexivity.
Qed.

(** C7, as stated, fails: a constructed processor is subscribed already, a
    further [setup] changes nothing, and [teardown] then leaves it
    unsubscribed. *)
Lemma roundtrip_fails_when_subscribed :
  exists self bus,
    construct RealTimeSignalProcessor 7 ["default"] no_receivers = Some (self, bus) /\
    ~ roundtrip self bus.
Proof.
  eexists _, _. split; [reflexivity|].
  intros (bus' & H1 & H2). vm_compute in H1. injection H1 as <-.
  vm_compute in H2. discriminate.
Qed.

(** C7, amended. For a [RealTimeSignalProcessor], [setup] followed by
    [teardown] is [teardown] alone: the three handlers, [handle_save] on
    [post_save], [handle_delete] on [post_delete] and [handle_m2m_changed]
    on [m2m_changed], are connected after [setup] and disconnected again by
    [teardown]. The subscriptions are as before [setup] when none of the
    three handlers was connected then. *)
Theorem setup_teardown_roundtrip (self : Processor) (bus : ModelSignals) :
  cls self = RealTimeSignalProcessor ->
  (exists bus', setup self bus = Some bus' /\
                all_subscribed self bus' = true /\
                teardown self bus' = teardown self bus) /\
  (any_subscribed self bus = false -> roundtrip self bus).
Proof.
  destruct self as [c i conns], bus as [ps pd mc]. simpl. intros ->.
  split.
  - eexists. split; [reflexivity|]. split.
    + unfold all_subscribed, receives. simpl.
      rewrite !bool_decide_eq_true_2 by apply elem_of_connect. reflexivity.
    + unfold teardown, DjangoSignalsMixin_teardown. simpl.
      rewrite !disconnect_connect. reflexivity.
  - unfold any_subscribed, receives. simpl. intros H.
    apply orb_false_iff in H as [H H3]. apply orb_false_iff in H as [H1 H2].
    apply bool_decide_eq_false in H1, H2, H3.
    eexists. split; [reflexivity|].
    unfold teardown, DjangoSignalsMixin_teardown. simpl.
    rewrite !disconnect_connect, !disconnect_absent by assumption. reflexivity.
Qed.

Lemma setup_teardown_roundtrip_witness :
  cls (unbuilt RealTimeSignalProcessor 7) = RealTimeSignalProcessor /\
  any_subscribed (unbuilt RealTimeSignalProcessor 7) no_receivers = false /\
  roundtrip (unbuilt RealTimeSignalProcessor 7) no_receivers.
Proof.
  split; [reflexivity|]. split; [reflexivity|].
  apply (setup_teardown_roundtrip (unbuilt RealTimeSignalProcessor 7) no_receivers);
    reflexivity.
Defined.

(** C10. Constructing a processor subscribes it: [__init__] stores the given
    connections and calls [setup], which for a [RealTimeSignalProcessor] is
    the mixin's, so the new object has its three handlers connected to
    [post_save], [post_delete] and [m2m_changed] without any further call. A
    plain [BaseSignalProcessor] is constructed without touching the signals. *)
Theorem construct_subscribes (new_id : nat) (conns : Connections) (bus : ModelSignals) :
  (exists self bus',
     construct RealTimeSignalProcessor new_id conns bus = Some (self, bus') /\
     cls self = RealTimeSignalProcessor /\ obj_id self = new_id /\
     connections self = Some conns /\
     setup self bus = Some bus' /\
     all_subscribed self bus' = true) /\
  construct BaseSignalProcessor new_id conns bus =
    Some ({| cls := BaseSignalProcessor; obj_id := new_id; connections := Some conns |}, bus).
Proof.
  split; [|reflexivity].
  eexists _, _. split; [reflexivity|]. repeat (split; [reflexivity|]).
  unfold all_subscribed, receives. simpl.
  rewrite !bool_decide_eq_true_2 by apply elem_of_connect. reflexivity.
Qed.

(** ** Further properties of the subscription hooks *)

Lemma setup_realtime (self : Processor) (bus : ModelSignals) :
  cls self = RealTimeSignalProcessor ->
  setup self bus =
  Some {| post_save := connect (handler self m_handle_save) (post_save bus);
          post_delete := connect (handler self m_handle_delete) (post_delete bus);
          m2m_changed := connect (handler self m_handle_m2m_changed) (m2m_changed bus) |}.
Proof. destruct self as [c i conns]. simpl. intros ->. reflexivity. Qed.

Lemma teardown_realtime (self : Processor) (bus : ModelSignals) :
  cls self = RealTimeSignalProcessor ->
  teardown self bus =
  Some {| post_save := disconnect (handler self m_handle_save) (post_save bus);
          post_delete := disconnect (handler self m_handle_delete) (post_delete bus);
          m2m_changed := disconnect (handler self m_handle_m2m_changed) (m2m_changed bus) |}.
Proof. destruct self as [c i conns]. simpl. intros ->. reflexivity. Qed.

Lemma hooks_base (self : Processor) (bus : ModelSignals) :
  cls self = BaseSignalProcessor ->
  setup self bus = Some bus /\ teardown self bus = Some bus.
Proof. destruct self as [c i conns]. simpl. intros ->. split; reflexivity. Qed.

Lemma hooks_mixin (self : Processor) (bus : ModelSignals) :
  cls self = DjangoSignalsMixin ->
  setup self bus = None /\ teardown self bus = None.
Proof. destruct self as [c i conns]. simpl. intros ->. split; reflexivity. Qed.

Lemma connect_connect (r : BoundMethod) (s : Signal) :
  connect r (connect r s) = connect r s.
Proof.
  unfold connect at 1. rewrite bool_decide_eq_true_2 by apply elem_of_connect.
  reflexivity.
Qed.

Lemma elem_of_connect_iff (h r : BoundMethod) (s : Signal) :
  h ∈ connect r s <-> h = r \/ h ∈ s.
Proof.
  unfold connect. case_bool_decide as H.
  - split; [auto|]. intros [-> | Hs]; assumption.
  - rewrite elem_of_app, list_elem_of_singleton. tauto.
Qed.

Lemma elem_of_disconnect (h r : BoundMethod) (s : Signal) :
  h ∈ disconnect r s -> h ∈ s.
Proof.
  induction s as [|x s IH]; simpl; [auto|].
  case_bool_decide as E; rewrite !elem_of_cons; [auto|]. intros [-> | Hh]; auto.
Qed.

Lemma elem_of_disconnect_ne (h r : BoundMethod) (s : Signal) :
  h <> r -> (h ∈ disconnect r s <-> h ∈ s).
Proof.
  intros Hne. split; [apply elem_of_disconnect|].
  induction s as [|x s IH]; simpl; [auto|].
  rewrite elem_of_cons. case_bool_decide as E.
  - intros [-> | H]; [congruence | exact H].
  - rewrite elem_of_cons. intros [-> | H]; auto.
Qed.

Lemma NoDup_connect (r : BoundMethod) (s : Signal) :
  NoDup s -> NoDup (connect r s).
Proof.
  intros H. unfold connect. case_bool_decide as E; [exact H|].
  apply NoDup_app. split; [exact H|]. split.
  - intros x Hx Hr. apply list_elem_of_singleton in Hr as ->. contradiction.
  - apply NoDup_singleton.
Qed.

Lemma NoDup_disconnect (r : BoundMethod) (s : Signal) :
  NoDup s -> NoDup (disconnect r s).
Proof.
  induction s as [|x s IH]; simpl; intros H; [exact H|].
  apply NoDup_cons in H as [Hx Hs]. case_bool_decide; [exact Hs|].
  apply NoDup_cons. split; [|apply IH, Hs].
  intros Hin. apply Hx. eapply elem_of_disconnect, Hin.
Qed.

Lemma disconnect_gone (r : BoundMethod) (s : Signal) :
  NoDup s -> r ∉ disconnect r s.
Proof.
  induction s as [|x s IH]; simpl; intros H; [apply not_elem_of_nil|].
  apply NoDup_cons in H as [Hx Hs]. case_bool_decide as E.
  - subst x. exact Hx.
  - apply not_elem_of_cons. split; [congruence | apply IH, Hs].
Qed.

Lemma distinct_receivers_spec (bus : ModelSignals) :
  distinct_receivers bus = true <->
  NoDup (post_save bus) /\ NoDup (post_delete bus) /\ NoDup (m2m_changed bus).
Proof.
  unfold distinct_receivers. rewrite !andb_true_iff, !bool_decide_eq_true. tauto.
Qed.

(** X1. [setup] is idempotent: once it has run, running it again changes no
    subscription, so no handler is ever connected twice to a signal by it. *)
Theorem setup_idempotent (self : Processor) (bus bus' : ModelSignals) :
  setup self bus = Some bus' -> setup self bus' = Some bus'.
Proof.
  destruct (cls self) eqn:C.
  - destruct (hooks_base self bus C) as [-> _]. intros [= <-].
    apply (hooks_base self bus C).
  - destruct (hooks_mixin self bus C) as [-> _]. discriminate.
  - rewrite (setup_realtime self bus C). intros [= <-].
    rewrite (setup_realtime _ _ C). simpl. rewrite !connect_connect. reflexivity.
Qed.

Lemma setup_idempotent_witness :
  setup (unbuilt RealTimeSignalProcessor 7) (subscribed_bus [8]) =
    Some (subscribed_bus [8; 7]) /\
  setup (unbuilt RealTimeSignalProcessor 7) (subscribed_bus [8; 7]) =
    Some (subscribed_bus [8; 7]).
Proof.
  split; [reflexivity|].
  apply (setup_idempotent (unbuilt RealTimeSignalProcessor 7) (subscribed_bus [8])).
  reflexivity.
Defined.

(** X2. [setup] and [teardown] keep the receivers of every signal distinct:
    on signals where no receiver is connected twice, neither hook leaves
    one connected twice. *)
Theorem hooks_keep_receivers_distinct (self : Processor) (bus bus' : ModelSignals) :
  distinct_receivers bus = true ->
  setup self bus = Some bus' \/ teardown self bus = Some bus' ->
  distinct_receivers bus' = true.
Proof.
  intros D H. destruct (cls self) eqn:C.
  - destruct (hooks_base self bus C) as [E1 E2]. rewrite E1, E2 in H.
    destruct H as [[= <-] | [= <-]]; exact D.
  - destruct (hooks_mixin self bus C) as [E1 E2]. rewrite E1, E2 in H.
    destruct H as [H | H]; discriminate.
  - rewrite (setup_realtime self bus C), (teardown_realtime self bus C) in H.
    apply distinct_receivers_spec in D as (D1 & D2 & D3).
    apply distinct_receivers_spec.
    destruct H as [[= <-] | [= <-]]; simpl;
      auto using NoDup_connect, NoDup_disconnect.
Qed.

Lemma hooks_keep_receivers_distinct_witness :
  distinct_receivers (subscribed_bus [8; 7]) = true /\
  (setup (unbuilt RealTimeSignalProcessor 7) (subscribed_bus [8; 7]) = Some (subscribed_bus [8; 7]) \/
   teardown (unbuilt RealTimeSignalProcessor 7) (subscribed_bus [8; 7]) = Some (subscribed_bus [8; 7])) /\
  distinct_receivers (subscribed_bus [8; 7]) = true.
Proof.
  assert (D : distinct_receivers (subscribed_bus [8; 7]) = true) by reflexivity.
  assert (H : setup (unbuilt RealTimeSignalProcessor 7) (subscribed_bus [8; 7]) =
                Some (subscribed_bus [8; 7]) \/
              teardown (unbuilt RealTimeSignalProcessor 7) (subscribed_bus [8; 7]) =
                Some (subscribed_bus [8; 7]))
    by (left; reflexivity).
  split; [exact D|]. split; [exact H|].
  exact (hooks_keep_receivers_distinct
           (unbuilt RealTimeSignalProcessor 7) (subscribed_bus [8; 7])
           (subscribed_bus [8; 7]) D H).
Defined.

Lemma any_subscribed_realtime (self : Processor) (bus : ModelSignals) :
  cls self = RealTimeSignalProcessor ->
  any_subscribed self bus =
  bool_decide (handler self m_handle_save ∈ post_save bus) ||
  bool_decide (handler self m_handle_delete ∈ post_delete bus) ||
  bool_decide (handler self m_handle_m2m_changed ∈ m2m_changed bus).
Proof. destruct self as [c i conns]. simpl. intros ->. reflexivity. Qed.

(** X3. [teardown] really unsubscribes a [RealTimeSignalProcessor]: on
    signals that hold no receiver twice, none of its three handlers is
    connected afterwards. *)
Theorem teardown_unsubscribes (self : Processor) (bus : ModelSignals) :
  cls self = RealTimeSignalProcessor ->
  distinct_receivers bus = true ->
  exists bus', teardown self bus = Some bus' /\ any_subscribed self bus' = false.
Proof.
  intros C D. apply distinct_receivers_spec in D as (D1 & D2 & D3).
  eexists. split; [apply (teardown_realtime self bus C)|].
  rewrite (any_subscribed_realtime _ _ C). simpl.
  rewrite !bool_decide_eq_false_2 by (apply disconnect_gone; assumption).
  reflexivity.
Qed.

Lemma teardown_unsubscribes_witness :
  cls (unbuilt RealTimeSignalProcessor 7) = RealTimeSignalProcessor /\
  distinct_receivers (subscribed_bus [7; 8]) = true /\
  exists bus', teardown (unbuilt RealTimeSignalProcessor 7) (subscribed_bus [7; 8]) = Some bus' /\
               any_subscribed (unbuilt RealTimeSignalProcessor 7) bus' = false.
Proof.
  split; [reflexivity|]. split; [reflexivity|].
  apply (teardown_unsubscribes (unbuilt RealTimeSignalProcessor 7) (subscribed_bus [7; 8]));
    reflexivity.
Defined.

(** X4. [teardown] is idempotent on signals that hold no receiver twice:
    after one [teardown] a second one changes nothing (and does not fail:
    disconnecting a handler that is not connected is no error). *)
Theorem teardown_idempotent (self : Processor) (bus bus' : ModelSignals) :
  distinct_receivers bus = true ->
  teardown self bus = Some bus' -> teardown self bus' = Some bus'.
Proof.
  intros D. destruct (cls self) eqn:C.
  - destruct (hooks_base self bus C) as [_ ->]. intros [= <-].
    apply (hooks_base self bus C).
  - destruct (hooks_mixin self bus C) as [_ ->]. discriminate.
  - apply distinct_receivers_spec in D as (D1 & D2 & D3).
    rewrite (teardown_realtime self bus C). intros [= <-].
    rewrite (teardown_realtime _ _ C). simpl.
    rewrite (disconnect_absent _ (disconnect _ (post_save bus)))
      by (apply disconnect_gone; assumption).
    rewrite (disconnect_absent _ (disconnect _ (post_delete bus)))
      by (apply disconnect_gone; assumption).
    rewrite (disconnect_absent _ (disconnect _ (m2m_changed bus)))
      by (apply disconnect_gone; assumption).
    reflexivity.
Qed.

Lemma teardown_idempotent_witness :
  distinct_receivers (subscribed_bus [7; 8]) = true /\
  teardown (unbuilt RealTimeSignalProcessor 7) (subscribed_bus [7; 8]) =
    Some (subscribed_bus [8]) /\
  teardown (unbuilt RealTimeSignalProcessor 7) (subscribed_bus [8]) =
    Some (subscribed_bus [8]).
Proof.
  split; [reflexivity|]. split; [reflexivity|].
  apply (teardown_idempotent (unbuilt RealTimeSignalProcessor 7) (subscribed_bus [7; 8]));
    reflexivity.
Defined.

(** X5. The hooks of one processor leave the receivers of every other object
    alone: a receiver bound to another object is connected to a signal after
    [setup] or [teardown] exactly when it was before. *)
Theorem hooks_leave_others_alone (self : Processor) (bus bus' : ModelSignals)
    (h : BoundMethod) :
  self_id h <> obj_id self ->
  setup self bus = Some bus' \/ teardown self bus = Some bus' ->
  (h ∈ post_save bus' <-> h ∈ post_save bus) /\
  (h ∈ post_delete bus' <-> h ∈ post_delete bus) /\
  (h ∈ m2m_changed bus' <-> h ∈ m2m_changed bus).
Proof.
  intros Hid H. destruct (cls self) eqn:C.
  - destruct (hooks_base self bus C) as [E1 E2]. rewrite E1, E2 in H.
    destruct H as [[= <-] | [= <-]]; tauto.
  - destruct (hooks_mixin self bus C) as [E1 E2]. rewrite E1, E2 in H.
    destruct H as [H | H]; discriminate.
  - assert (Hne : forall name, h <> handler self name)
      by (intros name ->; apply Hid; reflexivity).
    rewrite (setup_realtime self bus C), (teardown_realtime self bus C) in H.
    destruct H as [[= <-] | [= <-]]; simpl.
    + rewrite !elem_of_connect_iff.
      pose proof (Hne m_handle_save). pose proof (Hne m_handle_delete).
      pose proof (Hne m_handle_m2m_changed). tauto.
    + rewrite !elem_of_disconnect_ne by apply Hne. tauto.
Qed.

Lemma hooks_leave_others_alone_witness :
  self_id (handler (unbuilt RealTimeSignalProcessor 8) m_handle_save) <>
    obj_id (unbuilt RealTimeSignalProcessor 7) /\
  (setup (unbuilt RealTimeSignalProcessor 7) (subscribed_bus [7; 8]) = Some (subscribed_bus [8]) \/
   teardown (unbuilt RealTimeSignalProcessor 7) (subscribed_bus [7; 8]) = Some (subscribed_bus [8])) /\
  (handler (unbuilt RealTimeSignalProcessor 8) m_handle_save ∈ post_save (subscribed_bus [8]) <->
   handler (unbuilt RealTimeSignalProcessor 8) m_handle_save ∈ post_save (subscribed_bus [7; 8])).
Proof.
  assert (Hid : self_id (handler (unbuilt RealTimeSignalProcessor 8) m_handle_save) <>
                obj_id (unbuilt RealTimeSignalProcessor 7)) by (simpl; lia).
  assert (H : setup (unbuilt RealTimeSignalProcessor 7) (subscribed_bus [7; 8]) =
                Some (subscribed_bus [8]) \/
              teardown (unbuilt RealTimeSignalProcessor 7) (subscribed_bus [7; 8]) =
                Some (subscribed_bus [8]))
    by (right; reflexivity).
  split; [exact Hid|]. split; [exact H|].
  exact (proj1 (hooks_leave_others_alone
                  (unbuilt RealTimeSignalProcessor 7) (subscribed_bus [7; 8])
                  (subscribed_bus [8])
                  (handler (unbuilt RealTimeSignalProcessor 8) m_handle_save) Hid H)).
Defined.

(** X6. The life of a processor is a round trip: constructing a
    [RealTimeSignalProcessor] whose handlers are not connected yet, as those
    of a new object are not, and tearing it down gives the subscriptions
    there were before the construction. *)
Theorem construct_teardown_roundtrip (new_id : nat) (conns : Connections)
    (bus : ModelSignals) :
  any_subscribed (unbuilt RealTimeSignalProcessor new_id) bus = false ->
  exists self bus',
    construct RealTimeSignalProcessor new_id conns bus = Some (self, bus') /\
    teardown self bus' = Some bus.
Proof.
  intros H. rewrite any_subscribed_realtime in H by reflexivity.
  apply orb_false_iff in H as [H H3]. apply orb_false_iff in H as [H1 H2].
  apply bool_decide_eq_false in H1, H2, H3.
  eexists _, _. split; [reflexivity|].
  rewrite teardown_realtime by reflexivity. simpl.
  rewrite !disconnect_connect.
  unfold handler in *. simpl in *.
  rewrite !disconnect_absent by assumption.
  destruct bus; reflexivity.
Qed.

Lemma construct_teardown_roundtrip_witness :
  any_subscribed (unbuilt RealTimeSignalProcessor 7) (subscribed_bus [8]) = false /\
  exists self bus',
    construct RealTimeSignalProcessor 7 ["default"] (subscribed_bus [8]) = Some (self, bus') /\
    teardown self bus' = Some (subscribed_bus [8]).
Proof.
  split; [reflexivity|].
  apply (construct_teardown_roundtrip 7 ["default"] (subscribed_bus [8])).
  reflexivity.
Defined.

Lemma hook_runs_agree (self : Processor) (bus : ModelSignals) :
  setup self bus = outcome_of (setup_run self bus) /\
  teardown self bus = outcome_of (teardown_run self bus).
Proof. destruct self as [[] i conns]; split; reflexivity. Qed.

(** X7. The mixin does not stand alone. An object of [DjangoSignalsMixin]
    itself has no [handle_save], so [setup] and [teardown] stop at their
    first statement, before anything is connected or disconnected: run
    statement by statement they do not finish and the signals reached are
    the ones they started on. Nor has it an [__init__] that takes
    connections, so it cannot be constructed with them. On every object the
    statement-by-statement run gives what [setup] and [teardown] give. *)
Theorem mixin_needs_a_base (self : Processor) (new_id : nat) (conns : Connections)
    (bus : ModelSignals) :
  (setup self bus = outcome_of (setup_run self bus) /\
   teardown self bus = outcome_of (teardown_run self bus)) /\
  (cls self = DjangoSignalsMixin ->
   getattr self m_handle_save = None /\
   setup_run self bus = {| reached := bus; finished := false |} /\
   teardown_run self bus = {| reached := bus; finished := false |} /\
   setup self bus = None /\ teardown self bus = None /\
   resolve DjangoSignalsMixin m_init = None /\
   construct DjangoSignalsMixin new_id conns bus = None).
Proof.
  split; [apply hook_runs_agree|].
  destruct self as [c i k]. simpl. intros ->. repeat split.
Qed.

Lemma mixin_needs_a_base_witness :
  cls (unbuilt DjangoSignalsMixin 7) = DjangoSignalsMixin /\
  setup_run (unbuilt DjangoSignalsMixin 7) (subscribed_bus [8]) =
    {| reached := subscribed_bus [8]; finished := false |} /\
  teardown_run (unbuilt DjangoSignalsMixin 7) (subscribed_bus [8]) =
    {| reached := subscribed_bus [8]; finished := false |} /\
  construct DjangoSignalsMixin 7 ["default"] (subscribed_bus [8]) = None.
Proof.
  assert (C : cls (unbuilt DjangoSignalsMixin 7) = DjangoSignalsMixin) by reflexivity.
  destruct (proj2 (mixin_needs_a_base (unbuilt DjangoSignalsMixin 7) 7 ["default"]
                     (subscribed_bus [8])) C)
    as (_ & Hs & Ht & _ & _ & _ & Hc).
  split; [exact C|]. split; [exact Hs|]. split; [exact Ht|]. exact Hc.
Defined.

(** A processor with its base runs both hooks to the end. *)
Example realtime_hooks_finish :
  setup_run (unbuilt RealTimeSignalProcessor 7) (subscribed_bus [8]) =
    {| reached := subscribed_bus [8; 7]; finished := true |} /\
  teardown_run (unbuilt RealTimeSignalProcessor 7) (subscribed_bus [8; 7]) =
    {| reached := subscribed_bus [8]; finished := true |}.
Proof. split; reflexivity. Qed.

(** ** Further properties of the handlers *)

Lemma prefix_prefixes (a b : string) :
  String.prefix a b = true <-> a ∈ prefixes b.
Proof.
  revert a. induction b as [|d b IH]; intros [|c a]; simpl.
  - rewrite list_elem_of_singleton. tauto.
  - rewrite list_elem_of_singleton. split; discriminate.
  - rewrite elem_of_cons. tauto.
  - rewrite elem_of_cons, list_elem_of_fmap.
    destruct (Ascii.ascii_dec c d) as [->|Hne].
    + rewrite IH. split.
      * intros H. right. exists a. auto.
      * intros [H | (y & [= <-] & Hy)]; [discriminate | exact Hy].
    + split; [discriminate|].
      intros [H | (y & [= E _] & Hy)]; [discriminate | contradiction].
Qed.

Lemma str_in_substrings (a b : string) :
  str_in a b = true <-> a ∈ substrings b.
Proof.
  induction b as [|d b IH].
  - rewrite str_in_nil, prefix_prefixes. simpl. tauto.
  - rewrite str_in_cons, orb_true_iff, prefix_prefixes, IH.
    change (substrings (String d b)) with (prefixes (String d b) ++ substrings b).
    rewrite elem_of_app. tauto.
Qed.

Lemma save_actions_spec (action : string) :
  str_in action "post_add" = true <-> action ∈ save_actions.
Proof.
  assert (H1 : Forall (fun a => a ∈ save_actions) (substrings "post_add")).
  { refine (bool_decide_unpack _ _). vm_compute. exact I. }
  assert (H2 : Forall (fun a => a ∈ substrings "post_add") save_actions).
  { refine (bool_decide_unpack _ _). vm_compute. exact I. }
  rewrite Forall_forall in H1, H2.
  rewrite str_in_substrings. split; [apply H1 | apply H2].
Qed.

Lemma tuple_in_delete_actions (action : string) :
  tuple_in action ["post_remove"; "post_clear"] = true <->
  action = "post_remove" \/ action = "post_clear".
Proof.
  rewrite tuple_in_spec, !elem_of_cons. split; [|tauto].
  intros [H | [H | H]]; auto. apply elem_of_nil in H. contradiction.
Qed.

(** X8. The whole dispatch of [handle_m2m_changed], by the first call it
    makes: it takes the save path exactly for the thirty-six strings that
    occur in ['post_add'], the delete path exactly for ['post_remove'] and
    ['post_clear'], and makes no call for every other action. *)
Theorem m2m_dispatch_table {Index} (registry : Registry Index)
    (sender : Sender) (instance : Instance) (action : string) (idx : Index) :
  (head (calls (handle_m2m_changed registry sender instance action idx)) =
     Some (update_call instance) <-> action ∈ save_actions) /\
  (head (calls (handle_m2m_changed registry sender instance action idx)) =
     Some (delete_related_call instance) <->
   action = "post_remove" \/ action = "post_clear") /\
  (calls (handle_m2m_changed registry sender instance action idx) = [] <->
   (action ∉ save_actions) /\ action <> "post_remove" /\ action <> "post_clear").
Proof.
  pose proof (save_actions_spec action) as Hsave.
  pose proof (tuple_in_delete_actions action) as Hdel.
  destruct (str_in action "post_add") eqn:Hs.
  - assert (A : action ∈ save_actions) by (apply Hsave; reflexivity).
    assert (R : ~ (action = "post_remove" \/ action = "post_clear"))
      by (intros [-> | ->]; vm_compute in Hs; discriminate).
    rewrite (m2m_save_branch registry sender instance action idx Hs), handle_save_calls.
    simpl. intuition congruence.
  - assert (A : action ∉ save_actions)
      by (intros A; apply Hsave in A; discriminate).
    destruct (tuple_in action ["post_remove"; "post_clear"]) eqn:Ht.
    + assert (R : action = "post_remove" \/ action = "post_clear")
        by (apply Hdel; reflexivity).
      rewrite (m2m_delete_branch registry sender instance action idx Hs Ht),
        handle_delete_calls.
      simpl. intuition congruence.
    + assert (R : ~ (action = "post_remove" \/ action = "post_clear"))
        by (intros R; apply Hdel in R; discriminate).
      rewrite (m2m_no_branch registry sender instance action idx Hs Ht).
      simpl. intuition congruence.
Qed.

(** X9. No handler goes on after a registry call raised: in every run of
    [handle_save], [handle_delete] and [handle_m2m_changed] a call that
    raised is the last call made. The handlers catch nothing and retry
    nothing. *)
Theorem handlers_stop_at_first_exception {Index} (registry : Registry Index)
    (sender : Sender) (instance : Instance) (action : string) (idx : Index) :
  stops_at_raise (trace (handle_save registry sender instance idx)) = true /\
  stops_at_raise (trace (handle_delete registry sender instance idx)) = true /\
  stops_at_raise (trace (handle_m2m_changed registry sender instance action idx)) = true.
Proof.
  assert (Hs : stops_at_raise (trace (handle_save registry sender instance idx)) = true)
    by run_handler.
  assert (Hd : stops_at_raise (trace (handle_delete registry sender instance idx)) = true)
    by run_handler.
  unfold handle_m2m_changed.
  destruct (str_in action "post_add"); [tauto|].
  destruct (tuple_in action _); [tauto|]. repeat split; assumption.
Qed.

(** X10. A handler touches nothing but the instance it was given, and
    little of that: every registry call of [handle_save], [handle_delete]
    and [handle_m2m_changed] is a call on that instance, and a run makes at
    most two calls. *)
Theorem handlers_call_for_their_instance {Index} (registry : Registry Index)
    (sender : Sender) (instance : Instance) (action : string) (idx : Index) :
  (forallb (is_about instance) (calls (handle_save registry sender instance idx)) = true /\
   length (calls (handle_save registry sender instance idx)) <= 2) /\
  (forallb (is_about instance) (calls (handle_delete registry sender instance idx)) = true /\
   length (calls (handle_delete registry sender instance idx)) <= 2) /\
  (forallb (is_about instance)
     (calls (handle_m2m_changed registry sender instance action idx)) = true /\
   length (calls (handle_m2m_changed registry sender instance action idx)) <= 2).
Proof.
  assert (B : is_about instance (update_call instance) = true /\
              is_about instance (update_related_call instance) = true /\
              is_about instance (delete_related_call instance) = true /\
              is_about instance (delete_call instance false) = true)
    by (unfold is_about; simpl; rewrite bool_decide_eq_true_2 by reflexivity; auto).
  destruct B as (B1 & B2 & B3 & B4).
  assert (Hs : forallb (is_about instance)
                 (calls (handle_save registry sender instance idx)) = true /\
               length (calls (handle_save registry sender instance idx)) <= 2).
  { rewrite handle_save_calls. destruct (raised _); simpl; rewrite ?B1, ?B2; auto. }
  assert (Hd : forallb (is_about instance)
                 (calls (handle_delete registry sender instance idx)) = true /\
               length (calls (handle_delete registry sender instance idx)) <= 2).
  { rewrite handle_delete_calls. destruct (raised _); simpl; rewrite ?B3, ?B4; auto. }
  unfold handle_m2m_changed.
  destruct (str_in action "post_add"); [tauto|].
  destruct (tuple_in action _); [tauto|].
  repeat split; try assumption; try apply Hs; try apply Hd; simpl; lia.
Qed.
